(** * pwsh-repl: the token-counter script and the greeting tool

    A shallow embedding of

    - [src/powershell-persistent/Modules/TokenCounter/test_tiktoken.py]
      (the function [count_tokens] and the [__main__] block), and
    - [custom/hello_world.py] (the function [hello]),

    together with the properties their specification states.

    Python code that calls out (tokenizer, file system, the two output
    streams, [sys.exit]) is written in a small monad [Py]: a computation
    yields the list of external effects it performed, in order, and either
    the value it returns or the exception it raises. *)

From Stdlib Require Import String Ascii ZArith List Bool Lia DecimalString.
Import ListNotations.

Local Open Scope string_scope.
Local Open Scope Z_scope.

(** ** Python exceptions *)

(** The exception classes that matter here, with Python's inheritance
    between them.  [PanicException] is [pyo3_runtime.PanicException], what a
    Rust extension module (tiktoken's native core is one) raises when it
    panics; like [SystemExit] it derives from [BaseException] directly, not
    from [Exception]. *)
Inductive pyclass : Type :=
| BaseException
| SystemExit
| PanicException
| Exception
| LookupError
| KeyError
| IndexError
| ValueError
| UnicodeError
| UnicodeDecodeError
| OSError
| FileNotFoundError
| PermissionError
| IsADirectoryError
| RuntimeError
| MemoryError.

Definition pyclass_eqb (a b : pyclass) : bool :=
  match a, b with
  | BaseException, BaseException | SystemExit, SystemExit
  | PanicException, PanicException | Exception, Exception
  | LookupError, LookupError | KeyError, KeyError | IndexError, IndexError
  | ValueError, ValueError | UnicodeError, UnicodeError
  | UnicodeDecodeError, UnicodeDecodeError | OSError, OSError
  | FileNotFoundError, FileNotFoundError | PermissionError, PermissionError
  | IsADirectoryError, IsADirectoryError | RuntimeError, RuntimeError
  | MemoryError, MemoryError => true
  | _, _ => false
  end.

(** The direct base class ([__base__]); [BaseException] is the root. *)
Definition base (c : pyclass) : option pyclass :=
  match c with
  | BaseException => None
  | SystemExit | PanicException | Exception => Some BaseException
  | LookupError | ValueError | OSError | RuntimeError | MemoryError =>
      Some Exception
  | KeyError | IndexError => Some LookupError
  | UnicodeError => Some ValueError
  | UnicodeDecodeError => Some UnicodeError
  | FileNotFoundError | PermissionError | IsADirectoryError => Some OSError
  end.

(** [issubclass c d], walking up at most [fuel] base classes. *)
Fixpoint issubclass_upto (fuel : nat) (c d : pyclass) : bool :=
  pyclass_eqb c d ||
  match fuel with
  | O => false
  | S fuel' =>
      match base c with
      | Some b => issubclass_upto fuel' b d
      | None => false
      end
  end.

(** The hierarchy above is five classes deep. *)
Definition issubclass : pyclass -> pyclass -> bool := issubclass_upto 5.

(** An exception object.  [Raised c s] is an instance of class [c] whose
    [str()] is [s]; [Exit code] is the [SystemExit] that [sys.exit(code)]
    raises. *)
Inductive exn : Type :=
| Raised (c : pyclass) (s : string)
| Exit (code : Z).

Definition exn_class (e : exn) : pyclass :=
  match e with
  | Raised c _ => c
  | Exit _ => SystemExit
  end.

(** [str(e)], as the f-strings of the script format it. *)
Definition str_exn (e : exn) : string :=
  match e with
  | Raised _ s => s
  | Exit code => NilZero.string_of_int (Z.to_int code)
  end.

Definition isinstance (e : exn) (c : pyclass) : bool :=
  issubclass (exn_class e) c.

(** ** Effects *)

(** What a run does to the outside world.  Calls to the external
    collaborators are recorded next to the text written to the two streams,
    so that "does not call" and "does not print" are statements about the
    trace. *)
Inductive event : Type :=
| CallIsFile (path : string)
| CallOpenRead (path : string)
| CallEncodingForModel (model : string)
| CallEncode (text : string)
| Stdout (s : string)
| Stderr (s : string).

Definition trace : Type := list event.

(** A computation: the effects performed and the outcome, [inr v] for
    [return v] and [inl e] for an exception [e] leaving the computation. *)
Definition Py (A : Type) : Type := trace * (exn + A).

Definition ret {A} (a : A) : Py A := ([], inr a).

Definition raise {A} (e : exn) : Py A := ([], inl e).

(** [m], run once the effects [t] have happened. *)
Definition after {A} (t : trace) (m : Py A) : Py A :=
  let (t', r) := m in ((t ++ t')%list, r).

Definition bind {A B} (m : Py A) (k : A -> Py B) : Py B :=
  match m with
  | (t, inl e) => (t, inl e)
  | (t, inr a) => after t (k a)
  end.

(** [try: m  except cls as e: h e] *)
Definition try_except {A} (m : Py A) (cls : pyclass) (h : exn -> Py A) : Py A :=
  match m with
  | (t, inl e) =>
      if isinstance e cls then after t (h e) else (t, inl e)
  | (t, inr a) => (t, inr a)
  end.

(** One external effect whose outcome the environment decides. *)
Definition perform {A} (ev : event) (r : exn + A) : Py A := ([ev], r).

Declare Scope py_scope.
Delimit Scope py_scope with py.
Notation "x <- m ;; k" := (bind m (fun x => k))
  (at level 61, m at next level, right associativity) : py_scope.
Notation "m ;; k" := (bind m (fun _ => k))
  (at level 61, right associativity) : py_scope.
Local Open Scope py_scope.

Definition newline : string := String (ascii_of_nat 10) EmptyString.

(** [str(n)] for an [int]. *)
Definition str_int (n : Z) : string := NilZero.string_of_int (Z.to_int n).

(** [print(s)] and [print(s, file=sys.stderr)]. *)
Definition print (s : string) : Py unit :=
  perform (Stdout (s ++ newline)) (inr tt).

Definition print_stderr (s : string) : Py unit :=
  perform (Stderr (s ++ newline)) (inr tt).

(** [sys.exit(code)] *)
Definition sys_exit {A} (code : Z) : Py A := raise (Exit code).

(** [l[i]] on a list: [IndexError] out of range. *)
Definition index {A} (l : list A) (i : nat) : Py A :=
  match nth_error l i with
  | Some a => ret a
  | None => raise (Raised IndexError "list index out of range")
  end.

(** What was written to each stream, in order. *)
Fixpoint stdout_of (t : trace) : string :=
  match t with
  | [] => ""
  | Stdout s :: t' => s ++ stdout_of t'
  | _ :: t' => stdout_of t'
  end.

Fixpoint stderr_of (t : trace) : string :=
  match t with
  | [] => ""
  | Stderr s :: t' => s ++ stderr_of t'
  | _ :: t' => stderr_of t'
  end.

Definition is_tokenizer_call (ev : event) : bool :=
  match ev with
  | CallEncodingForModel _ | CallEncode _ => true
  | _ => false
  end.

Definition is_file_read (ev : event) : bool :=
  match ev with
  | CallOpenRead _ => true
  | _ => false
  end.

(** ** The environment *)

(** The tokenizer library: [tiktoken.encoding_for_model] and the [encode]
    method of the encoding it returns.  Either call may raise. *)
Record Tokenizer : Type := {
  Encoding : Type;
  encoding_for_model : string -> exn + Encoding;
  encode : Encoding -> string -> exn + list Z
}.

(** Why reading a regular file fails, each with the text of its [str()]:
    no permission ([PermissionError]), bytes that are not UTF-8
    ([UnicodeDecodeError]), any other failure of the operating system
    ([OSError]).  These are what [open] and [read] raise; all are instances
    of [Exception]. *)
Inductive read_error : Type :=
| Denied (s : string)
| NotUtf8 (s : string)
| IOFailed (s : string).

Definition exn_of_read_error (r : read_error) : exn :=
  match r with
  | Denied s => Raised PermissionError s
  | NotUtf8 s => Raised UnicodeDecodeError s
  | IOFailed s => Raised OSError s
  end.

(** What a path names: a directory, or a regular file together with what
    [open(path, 'r', encoding='utf-8')] followed by [read()] gives on it,
    the decoded text or the failure. *)
Inductive node : Type :=
| Directory
| RegularFile (content : read_error + string).

(** A path that names nothing is [None]. *)
Definition FileSystem : Type := string -> option node.

Section Script.

Context (tk : Tokenizer) (fs : FileSystem).

(** [os.path.isfile(path)]: true for an existing regular file only. *)
Definition os_path_isfile (path : string) : Py bool :=
  perform (CallIsFile path)
    (inr match fs path with
         | Some (RegularFile _) => true
         | _ => false
         end).

(** [with open(path, 'r', encoding='utf-8') as f: f.read()] *)
Definition open_read (path : string) : Py string :=
  perform (CallOpenRead path)
    match fs path with
    | Some (RegularFile (inr s)) => inr s
    | Some (RegularFile (inl r)) => inl (exn_of_read_error r)
    | Some Directory => inl (Raised IsADirectoryError "Is a directory")
    | None => inl (Raised FileNotFoundError "No such file or directory")
    end.

Definition tiktoken_encoding_for_model (model : string) : Py (Encoding tk) :=
  perform (CallEncodingForModel model) (encoding_for_model tk model).

Definition enc_encode (enc : Encoding tk) (text : string) : Py (list Z) :=
  perform (CallEncode text) (encode tk enc text).

(** *** test_tiktoken.py, lines 8-16

    The script always passes [model]; the default of the parameter is not
    used. *)
Definition count_tokens (text model : string) : Py Z :=
  try_except
    (enc <- tiktoken_encoding_for_model model ;;
     tokens <- enc_encode enc text ;;
     ret (Z.of_nat (length tokens)))
    Exception
    (fun e =>
       print_stderr ("Error: " ++ str_exn e) ;;
       ret (-1)).

(** *** test_tiktoken.py, lines 20-33: the input text *)
Definition resolve_text (argv : list string) : Py string :=
  if (1 <? length argv)%nat then
    text_input <- index argv 1 ;;
    is_file <- os_path_isfile text_input ;;
    if is_file then
      try_except
        (open_read text_input)
        Exception
        (fun e =>
           print_stderr ("Error reading file: " ++ str_exn e) ;;
           sys_exit 1)
    else
      ret text_input
  else
    ret "Hello, World!".

(** *** line 35: the model identifier *)
Definition resolve_model (argv : list string) : Py string :=
  if (2 <? length argv)%nat then index argv 2 else ret "gpt-4".

(** *** lines 39-43: from the count to output and exit status *)
Definition report (token_count : Z) : Py unit :=
  if token_count >=? 0 then
    print (str_int token_count) ;;
    sys_exit 0
  else
    sys_exit 1.

(** *** lines 18-43: the [__main__] block, [argv] being [sys.argv] *)
Definition main (argv : list string) : Py unit :=
  text <- resolve_text argv ;;
  model <- resolve_model argv ;;
  token_count <- count_tokens text model ;;
  report token_count.

End Script.

(** ** The process *)

(** How the interpreter ends: the [SystemExit] of [sys.exit(code)] gives
    its code as the exit status (the script uses 0 and 1), any other
    exception that reaches the top level is reported by the interpreter and
    the status is 1, and running off the end of the script gives 0. *)
Definition exit_status (r : exn + unit) : Z :=
  match r with
  | inr tt => 0
  | inl (Exit code) => code
  | inl (Raised _ _) => 1
  end.

Record Process : Type := {
  effects : trace;
  status : Z
}.

Definition run (tk : Tokenizer) (fs : FileSystem) (argv : list string) : Process :=
  let (t, r) := main tk fs argv in
  {| effects := t; status := exit_status r |}.

(** What the script itself printed to standard output. *)
Definition stdout (p : Process) : string := stdout_of (effects p).

(** ** custom/hello_world.py *)

(** The function under the [@tool] decorator, lines 7-11. *)
Definition hello (_ : unit) : Py string := ret "Hello, world!".

(** ** Sample environments *)

(** A tokenizer that knows one model and makes one token of every byte,
    and refuses any other model the way [encoding_for_model] does, with a
    [KeyError]. *)
Definition byte_tokenizer : Tokenizer := {|
  Encoding := string;
  encoding_for_model := fun model =>
    if String.eqb model "gpt-4" then inr "cl100k_base"
    else inl (Raised KeyError "'Could not automatically map the model to a tokeniser.'");
  encode := fun _ text =>
    inr (map (fun c => Z.of_nat (nat_of_ascii c)) (list_ascii_of_string text))
|}.

(** A tokenizer whose native core panics while encoding. *)
Definition panicking_tokenizer : Tokenizer := {|
  Encoding := unit;
  encoding_for_model := fun _ => inr tt;
  encode := fun _ _ => inl (Raised PanicException "called `Result::unwrap()` on an `Err` value")
|}.

(** A tokenizer whose lookup ends the interpreter: it raises the
    [SystemExit] of [sys.exit(3)]. *)
Definition exiting_tokenizer : Tokenizer := {|
  Encoding := unit;
  encoding_for_model := fun _ => inl (Exit 3);
  encode := fun _ _ => inr []
|}.

(** A readable file, a file without read permission, a directory; nothing
    else exists. *)
Definition sample_fs : FileSystem := fun path =>
  if String.eqb path "notes.txt" then Some (RegularFile (inr "to be counted"))
  else if String.eqb path "secret.txt" then
    Some (RegularFile (inl (Denied "[Errno 13] Permission denied: 'secret.txt'")))
  else if String.eqb path "/tmp" then Some Directory
  else None.

(** The tokenizer lookup or the encoding raises [e] on this input. *)
Definition tokenizer_raises (tk : Tokenizer) (text model : string) (e : exn) : Prop :=
  encoding_for_model tk model = inl e \/
  exists enc, encoding_for_model tk model = inr enc /\ encode tk enc text = inl e.

(** ** Vocabulary of the further properties *)

(** The value that line 35 gives [model], as a function of [sys.argv]. *)
Definition model_of (argv : list string) : string :=
  match argv with
  | _ :: _ :: model :: _ => model
  | _ => "gpt-4"
  end.

(** A tokenizer whose failures are all instances of [Exception]. *)
Definition raises_only_Exception (tk : Tokenizer) : Prop :=
  (forall model e,
     encoding_for_model tk model = inl e -> isinstance e Exception = true) /\
  (forall enc text e,
     encode tk enc text = inl e -> isinstance e Exception = true).

(** What the script's own [print] calls wrote to the error stream. *)
Definition stderr (p : Process) : string := stderr_of (effects p).

Definition is_encode_call (ev : event) : bool :=
  match ev with
  | CallEncode _ => true
  | _ => false
  end.

(** ** Equations of the model *)

Ltac py_unfold :=
  unfold bind, try_except, after, perform, print, print_stderr, sys_exit,
    raise, ret in *.

Lemma append_empty_r (s : string) : s ++ "" = s.
Proof. induction s as [|c s IH]; simpl; [reflexivity | now rewrite IH]. Qed.

Lemma append_assoc (s1 s2 s3 : string) : (s1 ++ s2) ++ s3 = s1 ++ (s2 ++ s3).
Proof. induction s1 as [|c s1 IH]; simpl; [reflexivity | now rewrite IH]. Qed.

Lemma stdout_of_app (t t' : trace) :
  stdout_of (t ++ t')%list = stdout_of t ++ stdout_of t'.
Proof.
  induction t as [|ev t IH]; simpl; [reflexivity|].
  destruct ev; simpl; try exact IH.
  rewrite IH. symmetry. apply append_assoc.
Qed.

Lemma read_error_isinstance_Exception (r : read_error) :
  isinstance (exn_of_read_error r) Exception = true.
Proof. destruct r; reflexivity. Qed.

(** [count_tokens], one line per way through its [try]. *)
Lemma count_tokens_eq (tk : Tokenizer) (text model : string) :
  count_tokens tk text model =
  match encoding_for_model tk model with
  | inl e =>
      if isinstance e Exception then
        ([CallEncodingForModel model;
          Stderr (("Error: " ++ str_exn e) ++ newline)], inr (-1))
      else ([CallEncodingForModel model], inl e)
  | inr enc =>
      match encode tk enc text with
      | inl e =>
          if isinstance e Exception then
            ([CallEncodingForModel model; CallEncode text;
              Stderr (("Error: " ++ str_exn e) ++ newline)], inr (-1))
          else ([CallEncodingForModel model; CallEncode text], inl e)
      | inr tokens =>
          ([CallEncodingForModel model; CallEncode text],
           inr (Z.of_nat (length tokens)))
      end
  end.
Proof.
  unfold count_tokens, tiktoken_encoding_for_model, enc_encode. py_unfold.
  destruct (encoding_for_model tk model) as [e|enc]; simpl.
  - destruct (isinstance e Exception); reflexivity.
  - destruct (encode tk enc text) as [e|tokens]; simpl; [|reflexivity].
    destruct (isinstance e Exception); reflexivity.
Qed.

(** [count_tokens] writes nothing to standard output. *)
Lemma count_tokens_stdout (tk : Tokenizer) (text model : string) :
  stdout_of (fst (count_tokens tk text model)) = "".
Proof.
  rewrite count_tokens_eq.
  destruct (encoding_for_model tk model) as [e|enc].
  - destruct (isinstance e Exception); reflexivity.
  - destruct (encode tk enc text) as [e|tokens]; [|reflexivity].
    destruct (isinstance e Exception); reflexivity.
Qed.

(** The text of an invocation with at least one argument. *)
Lemma resolve_text_eq (fs : FileSystem) (script arg : string) (rest : list string) :
  resolve_text fs (script :: arg :: rest) =
  match fs arg with
  | Some (RegularFile (inr contents)) =>
      ([CallIsFile arg; CallOpenRead arg], inr contents)
  | Some (RegularFile (inl r)) =>
      ([CallIsFile arg; CallOpenRead arg;
        Stderr (("Error reading file: " ++ str_exn (exn_of_read_error r))
                ++ newline)], inl (Exit 1))
  | Some Directory | None => ([CallIsFile arg], inr arg)
  end.
Proof.
  unfold resolve_text, os_path_isfile, open_read, index. py_unfold. simpl.
  destruct (fs arg) as [[|[r|contents]]|]; simpl; try reflexivity.
  rewrite read_error_isinstance_Exception. reflexivity.
Qed.

Lemma resolve_text_stdout (fs : FileSystem) (argv : list string) :
  stdout_of (fst (resolve_text fs argv)) = "".
Proof.
  destruct argv as [|script [|arg rest]]; try reflexivity.
  rewrite resolve_text_eq.
  destruct (fs arg) as [[|[r|contents]]|]; reflexivity.
Qed.

(** Line 35 has no effect and cannot fail. *)
Lemma resolve_model_eq (argv : list string) :
  resolve_model argv =
  ret match argv with
      | _ :: _ :: model :: _ => model
      | _ => "gpt-4"
      end.
Proof. destruct argv as [|script [|arg [|model rest]]]; reflexivity. Qed.

Lemma report_eq (token_count : Z) :
  report token_count =
  if token_count >=? 0 then
    ([Stdout (str_int token_count ++ newline)], inl (Exit 0))
  else ([], inl (Exit 1)).
Proof. unfold report. py_unfold. destruct (token_count >=? 0); reflexivity. Qed.

(** A run that gets as far as a count ends the way [report] says. *)
Lemma run_of_count (tk : Tokenizer) (fs : FileSystem) (argv : list string)
    (t1 t2 t3 : trace) (text model : string) (token_count : Z) :
  resolve_text fs argv = (t1, inr text) ->
  resolve_model argv = (t2, inr model) ->
  count_tokens tk text model = (t3, inr token_count) ->
  run tk fs argv =
  {| effects := (t1 ++ t2 ++ t3 ++ fst (report token_count))%list;
     status := exit_status (snd (report token_count)) |}.
Proof.
  intros Htext Hmodel Hcount. unfold run, main. py_unfold.
  rewrite Htext, Hmodel, Hcount.
  destruct (report token_count) as [t4 r]. reflexivity.
Qed.

Lemma run_stdout_of_count (tk : Tokenizer) (fs : FileSystem) (argv : list string)
    (t1 t2 t3 : trace) (text model : string) (token_count : Z) :
  resolve_text fs argv = (t1, inr text) ->
  resolve_model argv = (t2, inr model) ->
  count_tokens tk text model = (t3, inr token_count) ->
  stdout (run tk fs argv) = stdout_of (fst (report token_count)) /\
  status (run tk fs argv) = exit_status (snd (report token_count)).
Proof.
  intros Htext Hmodel Hcount.
  rewrite (run_of_count tk fs argv t1 t2 t3 text model token_count Htext Hmodel Hcount).
  unfold stdout. simpl. split; [|reflexivity].
  pose proof (resolve_text_stdout fs argv) as H1. rewrite Htext in H1.
  pose proof (count_tokens_stdout tk text model) as H3. rewrite Hcount in H3.
  rewrite resolve_model_eq in Hmodel. injection Hmodel as <- _.
  simpl in H1, H3. rewrite !stdout_of_app, H1, H3. reflexivity.
Qed.

Lemma after_nil {A} (m : Py A) : after [] m = m.
Proof. destruct m as [t r]. reflexivity. Qed.

Lemma bind_ret {A B} (a : A) (k : A -> Py B) : bind (ret a) k = k a.
Proof. unfold bind, ret. apply after_nil. Qed.

(** Neither [count_tokens] nor [report] opens a file. *)
Lemma count_and_report_no_file_read (tk : Tokenizer) (text model : string) :
  existsb is_file_read
    (fst (token_count <- count_tokens tk text model ;; report token_count))
  = false.
Proof.
  rewrite count_tokens_eq. unfold bind, after.
  destruct (encoding_for_model tk model) as [e|enc].
  - destruct (isinstance e Exception); reflexivity.
  - destruct (encode tk enc text) as [e|tokens].
    + destruct (isinstance e Exception); reflexivity.
    + rewrite report_eq.
      destruct (Z.of_nat (length tokens) >=? 0); reflexivity.
Qed.

(** The whole run when the file named by the first argument cannot be
    read: lines 37-43 are never reached. *)
Lemma main_read_failure (tk : Tokenizer) (fs : FileSystem)
    (script path : string) (rest : list string) (r : read_error) :
  fs path = Some (RegularFile (inl r)) ->
  main tk fs (script :: path :: rest) =
  ([CallIsFile path; CallOpenRead path;
    Stderr (("Error reading file: " ++ str_exn (exn_of_read_error r))
            ++ newline)], inl (Exit 1)).
Proof.
  intros Hfile. unfold main. rewrite resolve_text_eq, Hfile. reflexivity.
Qed.

(** ** The claims *)

(** C1. Whenever the script gets a count from [count_tokens], that count
    decides what is printed and the exit status: a successful count (zero or
    more) is printed to standard output, alone on its line, and the status is
    0; the sentinel -1 gives status 1 and nothing on standard output. *)
Theorem C1_count_decides_stdout_and_status
    (tk : Tokenizer) (fs : FileSystem) (argv : list string)
    (t1 t2 t3 : trace) (text model : string) (token_count : Z) :
  resolve_text fs argv = (t1, inr text) ->
  resolve_model argv = (t2, inr model) ->
  count_tokens tk text model = (t3, inr token_count) ->
  (0 <= token_count ->
   stdout (run tk fs argv) = str_int token_count ++ newline /\
   status (run tk fs argv) = 0) /\
  (token_count = -1 ->
   stdout (run tk fs argv) = "" /\ status (run tk fs argv) = 1).
Proof.
  intros Htext Hmodel Hcount.
  destruct (run_stdout_of_count tk fs argv t1 t2 t3 text model token_count
              Htext Hmodel Hcount) as [-> ->].
  rewrite report_eq. split.
  - intros Hge. apply Z.leb_le in Hge. rewrite Z.geb_leb, Hge. simpl.
    split; [apply append_empty_r | reflexivity].
  - intros ->. simpl. split; reflexivity.
Qed.

Lemma C1_witness_count_and_sentinel :
  (stdout (run byte_tokenizer sample_fs ["test_tiktoken.py"; "notes.txt"])
     = "13" ++ newline /\
   status (run byte_tokenizer sample_fs ["test_tiktoken.py"; "notes.txt"]) = 0) /\
  (stdout (run byte_tokenizer sample_fs ["test_tiktoken.py"; "hi"; "gpt-9"]) = "" /\
   status (run byte_tokenizer sample_fs ["test_tiktoken.py"; "hi"; "gpt-9"]) = 1).
Proof.
  split.
  - apply (C1_count_decides_stdout_and_status byte_tokenizer sample_fs
             ["test_tiktoken.py"; "notes.txt"]
             [CallIsFile "notes.txt"; CallOpenRead "notes.txt"] []
             [CallEncodingForModel "gpt-4"; CallEncode "to be counted"]
             "to be counted" "gpt-4" 13);
      [reflexivity | reflexivity | reflexivity | lia].
  - apply (C1_count_decides_stdout_and_status byte_tokenizer sample_fs
             ["test_tiktoken.py"; "hi"; "gpt-9"]
             [CallIsFile "hi"] []
             [CallEncodingForModel "gpt-9";
              Stderr (("Error: " ++
                       "'Could not automatically map the model to a tokeniser.'")
                      ++ newline)]
             "hi" "gpt-9" (-1));
      reflexivity.
Defined.

(** C2, as the specification states it, fails: the handler is
    [except Exception], so an exception of the tokenizer that is not an
    instance of [Exception] is not caught.  Here the encoding panics;
    [count_tokens] writes no diagnostic and returns nothing, and the
    exception leaves it. *)
Lemma C2_counterexample_panic_propagates :
  tokenizer_raises panicking_tokenizer "x" "gpt-4"
    (Raised PanicException "called `Result::unwrap()` on an `Err` value") /\
  count_tokens panicking_tokenizer "x" "gpt-4" =
    ([CallEncodingForModel "gpt-4"; CallEncode "x"],
     inl (Raised PanicException "called `Result::unwrap()` on an `Err` value")) /\
  ~ (exists t, count_tokens panicking_tokenizer "x" "gpt-4" = (t, inr (-1))).
Proof.
  split; [right; exists tt; split; reflexivity|].
  split; [reflexivity|].
  intros [t H]. discriminate H.
Qed.

(** C2, amended. For every text and model, [count_tokens] catches any
    exception raised by the tokenizer lookup or by the encoding that is an
    instance of [Exception]: it writes the line "Error: " followed by the
    exception's text to the error stream, and nothing else, and returns -1.
    An exception raised by the lookup or by the encoding that is not an
    instance of [Exception] (a [PanicException], a [SystemExit]) is not
    caught: it leaves [count_tokens] as it is, nothing is returned and
    nothing is written to the error stream.  So no instance of [Exception]
    leaves [count_tokens]: an exception that does leave it is one the
    tokenizer raised and is not an instance of [Exception]. *)
Theorem C2_count_tokens_catches_Exception
    (tk : Tokenizer) (text model : string) :
  (forall e, tokenizer_raises tk text model e ->
             isinstance e Exception = true ->
     snd (count_tokens tk text model) = inr (-1) /\
     stderr_of (fst (count_tokens tk text model))
       = ("Error: " ++ str_exn e) ++ newline) /\
  (forall e, tokenizer_raises tk text model e ->
             isinstance e Exception = false ->
     snd (count_tokens tk text model) = inl e /\
     stderr_of (fst (count_tokens tk text model)) = "") /\
  (forall t e, count_tokens tk text model = (t, inl e) ->
     tokenizer_raises tk text model e /\ isinstance e Exception = false).
Proof.
  unfold tokenizer_raises. rewrite count_tokens_eq. split; [|split].
  - intros e [Hlookup | [enc [Hlookup Hencode]]] Hinst.
    + rewrite Hlookup, Hinst. simpl stderr_of. simpl fst. simpl snd.
      rewrite append_empty_r. split; reflexivity.
    + rewrite Hlookup, Hencode, Hinst. simpl stderr_of. simpl fst. simpl snd.
      rewrite append_empty_r. split; reflexivity.
  - intros e [Hlookup | [enc [Hlookup Hencode]]] Hinst.
    + rewrite Hlookup, Hinst. split; reflexivity.
    + rewrite Hlookup, Hencode, Hinst. split; reflexivity.
  - intros t e.
    destruct (encoding_for_model tk model) as [e1|enc].
    + destruct (isinstance e1 Exception) eqn:Hinst; intros H;
        inversion H; subst. split; [left; reflexivity | exact Hinst].
    + destruct (encode tk enc text) as [e2|tokens] eqn:Hencode.
      * destruct (isinstance e2 Exception) eqn:Hinst; intros H;
          inversion H; subst.
        split; [right; exists enc; split; [reflexivity | exact Hencode]
               | exact Hinst].
      * intros H. discriminate H.
Qed.

Lemma C2_witness_unknown_model_and_panic :
  (snd (count_tokens byte_tokenizer "some text" "not-a-real-model") = inr (-1) /\
   stderr_of (fst (count_tokens byte_tokenizer "some text" "not-a-real-model"))
     = ("Error: " ++ "'Could not automatically map the model to a tokeniser.'")
       ++ newline) /\
  (snd (count_tokens exiting_tokenizer "x" "gpt-4") = inl (Exit 3) /\
   stderr_of (fst (count_tokens exiting_tokenizer "x" "gpt-4")) = "") /\
  (tokenizer_raises panicking_tokenizer "x" "gpt-4"
     (Raised PanicException "called `Result::unwrap()` on an `Err` value") /\
   isinstance (Raised PanicException "called `Result::unwrap()` on an `Err` value")
     Exception = false).
Proof.
  split; [|split].
  - apply (proj1 (C2_count_tokens_catches_Exception byte_tokenizer
                    "some text" "not-a-real-model")
             (Raised KeyError
                "'Could not automatically map the model to a tokeniser.'"));
      [left; reflexivity | reflexivity].
  - apply (proj1 (proj2 (C2_count_tokens_catches_Exception exiting_tokenizer
                           "x" "gpt-4"))
             (Exit 3));
      [left; reflexivity | reflexivity].
  - apply (proj2 (proj2 (C2_count_tokens_catches_Exception panicking_tokenizer
                           "x" "gpt-4"))
             [CallEncodingForModel "gpt-4"; CallEncode "x"]).
    reflexivity.
Defined.

(** C3. For every text and model, a value that [count_tokens] returns is
    either the length of the token sequence the model's encoder produced for
    the text, which is not negative, or the sentinel -1; and when the lookup
    and the encoding both succeed the length is what it returns. *)
Theorem C3_count_is_length_or_sentinel
    (tk : Tokenizer) (text model : string) :
  (forall t n, count_tokens tk text model = (t, inr n) ->
     (exists enc tokens,
        encoding_for_model tk model = inr enc /\
        encode tk enc text = inr tokens /\
        n = Z.of_nat (length tokens) /\ 0 <= n)
     \/ n = -1) /\
  (forall enc tokens,
     encoding_for_model tk model = inr enc ->
     encode tk enc text = inr tokens ->
     snd (count_tokens tk text model) = inr (Z.of_nat (length tokens))).
Proof.
  rewrite count_tokens_eq. split.
  - intros t n.
    destruct (encoding_for_model tk model) as [e1|enc].
    + destruct (isinstance e1 Exception); intros H; inversion H.
      right; reflexivity.
    + destruct (encode tk enc text) as [e2|tokens] eqn:Hencode.
      * destruct (isinstance e2 Exception); intros H; inversion H.
        right; reflexivity.
      * intros H. inversion H. left. exists enc, tokens.
        repeat split; [exact Hencode | lia].
  - intros enc tokens -> ->. reflexivity.
Qed.

Lemma C3_witness_hello_world :
  ((exists enc tokens,
      encoding_for_model byte_tokenizer "gpt-4" = inr enc /\
      encode byte_tokenizer enc "Hello, World!" = inr tokens /\
      13 = Z.of_nat (length tokens) /\ 0 <= 13)
   \/ 13 = -1) /\
  snd (count_tokens byte_tokenizer "Hello, World!" "gpt-4") = inr 13.
Proof.
  split.
  - apply (proj1 (C3_count_is_length_or_sentinel byte_tokenizer
                    "Hello, World!" "gpt-4")
             [CallEncodingForModel "gpt-4"; CallEncode "Hello, World!"] 13).
    reflexivity.
  - apply (proj2 (C3_count_is_length_or_sentinel byte_tokenizer
                    "Hello, World!" "gpt-4")
             "cl100k_base"
             (map (fun c => Z.of_nat (nat_of_ascii c))
                  (list_ascii_of_string "Hello, World!")));
      reflexivity.
Defined.

(** C4. For every invocation with exactly one argument: when the argument
    names an existing regular file, the file is read and the text given to
    [count_tokens] is its contents, not the path; when it does not, the
    argument itself is the text and no file is opened at any point of the
    run. *)
Theorem C4_one_argument_file_or_literal
    (tk : Tokenizer) (fs : FileSystem) (script arg : string) :
  (forall contents, fs arg = Some (RegularFile (inr contents)) ->
     resolve_text fs [script; arg]
       = ([CallIsFile arg; CallOpenRead arg], inr contents) /\
     main tk fs [script; arg]
       = after [CallIsFile arg; CallOpenRead arg]
           (token_count <- count_tokens tk contents "gpt-4" ;;
            report token_count)) /\
  ((forall content, fs arg <> Some (RegularFile content)) ->
     resolve_text fs [script; arg] = ([CallIsFile arg], inr arg) /\
     main tk fs [script; arg]
       = after [CallIsFile arg]
           (token_count <- count_tokens tk arg "gpt-4" ;;
            report token_count) /\
     existsb is_file_read (fst (main tk fs [script; arg])) = false).
Proof.
  split.
  - intros contents Hfile.
    assert (Htext : resolve_text fs [script; arg]
                    = ([CallIsFile arg; CallOpenRead arg], inr contents))
      by (rewrite resolve_text_eq, Hfile; reflexivity).
    split; [exact Htext|].
    unfold main. rewrite Htext, resolve_model_eq.
    unfold bind at 1. rewrite bind_ret. reflexivity.
  - intros Hnofile.
    assert (Htext : resolve_text fs [script; arg] = ([CallIsFile arg], inr arg)).
    { rewrite resolve_text_eq.
      destruct (fs arg) as [[|content]|]; try reflexivity.
      exfalso. exact (Hnofile content eq_refl). }
    assert (Hmain : main tk fs [script; arg]
                    = after [CallIsFile arg]
                        (token_count <- count_tokens tk arg "gpt-4" ;;
                         report token_count)).
    { unfold main. rewrite Htext, resolve_model_eq.
      unfold bind at 1. rewrite bind_ret. reflexivity. }
    split; [exact Htext|]. split; [exact Hmain|].
    rewrite Hmain.
    pose proof (count_and_report_no_file_read tk arg "gpt-4") as Hno.
    destruct (token_count <- count_tokens tk arg "gpt-4" ;; report token_count)
      as [t r].
    exact Hno.
Qed.

Lemma C4_witness_file_and_literal :
  (resolve_text sample_fs ["test_tiktoken.py"; "notes.txt"]
     = ([CallIsFile "notes.txt"; CallOpenRead "notes.txt"], inr "to be counted") /\
   main byte_tokenizer sample_fs ["test_tiktoken.py"; "notes.txt"]
     = after [CallIsFile "notes.txt"; CallOpenRead "notes.txt"]
         (token_count <- count_tokens byte_tokenizer "to be counted" "gpt-4" ;;
          report token_count)) /\
  (resolve_text sample_fs ["test_tiktoken.py"; "missing.txt"]
     = ([CallIsFile "missing.txt"], inr "missing.txt") /\
   main byte_tokenizer sample_fs ["test_tiktoken.py"; "missing.txt"]
     = after [CallIsFile "missing.txt"]
         (token_count <- count_tokens byte_tokenizer "missing.txt" "gpt-4" ;;
          report token_count) /\
   existsb is_file_read
     (fst (main byte_tokenizer sample_fs ["test_tiktoken.py"; "missing.txt"]))
     = false).
Proof.
  split.
  - apply (proj1 (C4_one_argument_file_or_literal byte_tokenizer sample_fs
                    "test_tiktoken.py" "notes.txt") "to be counted").
    reflexivity.
  - apply (proj2 (C4_one_argument_file_or_literal byte_tokenizer sample_fs
                    "test_tiktoken.py" "missing.txt")).
    intros content H. discriminate H.
Defined.

(** C5. If reading the existing file that the first argument names fails,
    the script writes one diagnostic line, "Error reading file: " followed by
    the failure's text, to the error stream and exits with status 1 at once:
    nothing follows the diagnostic, the tokenizer is not called and nothing
    is written to standard output. *)
Theorem C5_read_failure_exits_at_once
    (tk : Tokenizer) (fs : FileSystem)
    (script path : string) (rest : list string) (r : read_error) :
  fs path = Some (RegularFile (inl r)) ->
  effects (run tk fs (script :: path :: rest))
    = [CallIsFile path; CallOpenRead path;
       Stderr (("Error reading file: " ++ str_exn (exn_of_read_error r))
               ++ newline)] /\
  status (run tk fs (script :: path :: rest)) = 1 /\
  existsb is_tokenizer_call (effects (run tk fs (script :: path :: rest)))
    = false /\
  stdout (run tk fs (script :: path :: rest)) = "".
Proof.
  intros Hfile. unfold stdout, run.
  rewrite (main_read_failure tk fs script path rest r Hfile).
  repeat split; reflexivity.
Qed.

Lemma C5_witness_permission_denied :
  effects (run byte_tokenizer sample_fs ["test_tiktoken.py"; "secret.txt"])
    = [CallIsFile "secret.txt"; CallOpenRead "secret.txt";
       Stderr (("Error reading file: "
                ++ "[Errno 13] Permission denied: 'secret.txt'") ++ newline)] /\
  status (run byte_tokenizer sample_fs ["test_tiktoken.py"; "secret.txt"]) = 1 /\
  existsb is_tokenizer_call
    (effects (run byte_tokenizer sample_fs ["test_tiktoken.py"; "secret.txt"]))
    = false /\
  stdout (run byte_tokenizer sample_fs ["test_tiktoken.py"; "secret.txt"]) = "".
Proof.
  apply (C5_read_failure_exits_at_once byte_tokenizer sample_fs
           "test_tiktoken.py" "secret.txt" []
           (Denied "[Errno 13] Permission denied: 'secret.txt'")).
  reflexivity.
Defined.




(** C7. Invoked with no arguments, the script gives [count_tokens] the text
    "Hello, World!" and the model "gpt-4".  When a second argument is present
    it is the model, in place of "gpt-4", and the text is resolved from the
    first argument exactly as it is without a second one. *)
Theorem C7_defaults_and_model_override (tk : Tokenizer) (fs : FileSystem) :
  (forall script,
     resolve_text fs [script] = ret "Hello, World!" /\
     resolve_model [script] = ret "gpt-4" /\
     main tk fs [script]
       = (token_count <- count_tokens tk "Hello, World!" "gpt-4" ;;
          report token_count)) /\
  (forall script arg model rest,
     resolve_model (script :: arg :: model :: rest) = ret model /\
     resolve_text fs (script :: arg :: model :: rest)
       = resolve_text fs [script; arg] /\
     main tk fs (script :: arg :: model :: rest)
       = (text <- resolve_text fs [script; arg] ;;
          token_count <- count_tokens tk text model ;;
          report token_count)).
Proof.
  split.
  - intros script. split; [reflexivity|]. split; [reflexivity|].
    unfold main.
    change (resolve_text fs [script]) with (@ret string "Hello, World!").
    rewrite resolve_model_eq, !bind_ret. reflexivity.
  - intros script arg model rest.
    assert (Htext : resolve_text fs (script :: arg :: model :: rest)
                    = resolve_text fs [script; arg])
      by (rewrite !resolve_text_eq; reflexivity).
    split; [reflexivity|]. split; [exact Htext|].
    unfold main. rewrite Htext, resolve_model_eq.
    destruct (resolve_text fs [script; arg]) as [t [e|text]]; [reflexivity|].
    unfold bind at 1 3. rewrite bind_ret. reflexivity.
Qed.

(** C8. Every call of [hello], which takes no argument, returns exactly the
    string "Hello, world!": it raises nothing and has no effect on the
    outside. *)
Theorem C8_hello_returns_greeting (u : unit) :
  snd (hello u) = inr "Hello, world!" /\ fst (hello u) = [].
Proof. split; reflexivity. Qed.

(** C9. At the command line a count of zero is a success: the test is
    [token_count >= 0], so when [count_tokens] returns 0 the script prints 0
    to standard output and exits with status 0; and any negative value, not
    -1 alone, takes the other branch, which prints nothing and exits with
    status 1. *)
Theorem C9_zero_succeeds_negative_fails :
  (forall (tk : Tokenizer) (fs : FileSystem) (argv : list string)
          (t1 t2 t3 : trace) (text model : string),
     resolve_text fs argv = (t1, inr text) ->
     resolve_model argv = (t2, inr model) ->
     count_tokens tk text model = (t3, inr 0) ->
     stdout (run tk fs argv) = "0" ++ newline /\
     status (run tk fs argv) = 0) /\
  report 0 = ([Stdout ("0" ++ newline)], inl (Exit 0)) /\
  (forall token_count, token_count < 0 ->
     report token_count = ([], inl (Exit 1)) /\
     exit_status (snd (report token_count)) = 1).
Proof.
  split; [|split].
  - intros tk fs argv t1 t2 t3 text model Htext Hmodel Hcount.
    destruct (run_stdout_of_count tk fs argv t1 t2 t3 text model 0
                Htext Hmodel Hcount) as [-> ->].
    split; reflexivity.
  - reflexivity.
  - intros token_count Hneg. rewrite report_eq, Z.geb_leb.
    destruct (Z.leb_spec 0 token_count); [lia|]. split; reflexivity.
Qed.

Lemma C9_witness_empty_text_and_minus_two :
  (stdout (run byte_tokenizer sample_fs ["test_tiktoken.py"; ""])
     = "0" ++ newline /\
   status (run byte_tokenizer sample_fs ["test_tiktoken.py"; ""]) = 0) /\
  (report (-2) = ([], inl (Exit 1)) /\ exit_status (snd (report (-2))) = 1).
Proof.
  split.
  - apply (proj1 C9_zero_succeeds_negative_fails byte_tokenizer sample_fs
             ["test_tiktoken.py"; ""] [CallIsFile ""] []
             [CallEncodingForModel "gpt-4"; CallEncode ""] "" "gpt-4");
      reflexivity.
  - apply (proj2 (proj2 C9_zero_succeeds_negative_fails) (-2)). lia.
Defined.

(** C10. Only the first two arguments are looked at: an invocation with
    three or more arguments performs the same effects with the same outcome
    as the invocation with its first two arguments alone. *)
Theorem C10_arguments_beyond_second_ignored
    (tk : Tokenizer) (fs : FileSystem)
    (script arg model extra : string) (rest : list string) :
  main tk fs (script :: arg :: model :: extra :: rest)
    = main tk fs [script; arg; model] /\
  run tk fs (script :: arg :: model :: extra :: rest)
    = run tk fs [script; arg; model].
Proof.
  assert (Hmain : main tk fs (script :: arg :: model :: extra :: rest)
                  = main tk fs [script; arg; model]).
  { unfold main. rewrite !resolve_text_eq, !resolve_model_eq. reflexivity. }
  split; [exact Hmain|]. unfold run. rewrite Hmain. reflexivity.
Qed.

(** ** Further properties of the script *)

(** The [__main__] block with line 35 evaluated. *)
Lemma main_eq (tk : Tokenizer) (fs : FileSystem) (argv : list string) :
  main tk fs argv =
  (text <- resolve_text fs argv ;;
   token_count <- count_tokens tk text (model_of argv) ;;
   report token_count).
Proof.
  unfold main. rewrite resolve_model_eq.
  destruct (resolve_text fs argv) as [t [e|text]]; [reflexivity|].
  unfold bind at 1 3. rewrite bind_ret. reflexivity.
Qed.

(** Lines 37-43, one line per way through [count_tokens]. *)
Lemma count_report_eq (tk : Tokenizer) (text model : string) :
  (token_count <- count_tokens tk text model ;; report token_count) =
  match encoding_for_model tk model with
  | inl e =>
      if isinstance e Exception then
        ([CallEncodingForModel model;
          Stderr (("Error: " ++ str_exn e) ++ newline)], inl (Exit 1))
      else ([CallEncodingForModel model], inl e)
  | inr enc =>
      match encode tk enc text with
      | inl e =>
          if isinstance e Exception then
            ([CallEncodingForModel model; CallEncode text;
              Stderr (("Error: " ++ str_exn e) ++ newline)], inl (Exit 1))
          else ([CallEncodingForModel model; CallEncode text], inl e)
      | inr tokens =>
          ([CallEncodingForModel model; CallEncode text;
            Stdout (str_int (Z.of_nat (length tokens)) ++ newline)],
           inl (Exit 0))
      end
  end.
Proof.
  rewrite count_tokens_eq.
  destruct (encoding_for_model tk model) as [e|enc].
  - destruct (isinstance e Exception); reflexivity.
  - destruct (encode tk enc text) as [e|tokens].
    + destruct (isinstance e Exception); reflexivity.
    + unfold bind, after. rewrite report_eq, Z.geb_leb.
      destruct (Z.leb_spec 0 (Z.of_nat (length tokens))); [reflexivity | lia].
Qed.

Lemma resolve_text_no_argument (fs : FileSystem) (argv : list string) :
  (length argv <= 1)%nat -> resolve_text fs argv = ret "Hello, World!".
Proof.
  destruct argv as [|script [|arg rest]]; simpl; intros H;
    [reflexivity | reflexivity | lia].
Qed.

Lemma bind_returned {A B} (t : trace) (a : A) (k : A -> Py B) :
  bind (t, inr a) k = after t (k a).
Proof. reflexivity. Qed.

Lemma bind_raised {A B} (t : trace) (e : exn) (k : A -> Py B) :
  bind (t, inl e) k = (t, inl e).
Proof. reflexivity. Qed.

(** Every way through the script: [argv] by its length, the first argument
    by what it names, the tokenizer by the outcome of its two calls. *)
Ltac script_cases tk fs argv :=
  let script := fresh "script" in
  let arg := fresh "arg" in
  let rest := fresh "rest" in
  let Hfs := fresh "Hfs" in
  let Hlookup := fresh "Hlookup" in
  let Hencode := fresh "Hencode" in
  let Hinst := fresh "Hinst" in
  destruct argv as [|script [|arg rest]];
  try unfold stdout, stderr; try unfold run; rewrite main_eq;
  [ rewrite resolve_text_no_argument by (simpl; lia); rewrite bind_ret
  | rewrite resolve_text_no_argument by (simpl; lia); rewrite bind_ret
  | rewrite resolve_text_eq;
    destruct (fs arg) as [[|[?r|?contents]]|] eqn:Hfs;
    rewrite ?bind_returned, ?bind_raised ];
  try rewrite count_report_eq;
  try (destruct (encoding_for_model tk _) as [?e|?enc] eqn:Hlookup;
       [ destruct (isinstance _ Exception) eqn:Hinst
       | destruct (encode tk _ _) as [?e|?tokens] eqn:Hencode;
         [ destruct (isinstance _ Exception) eqn:Hinst | ] ]);
  cbn [after app fst snd effects status exit_status].

(** X1. Whatever the arguments (none at all, too many), the file system
    and the tokenizer, the script ends in one of three ways: [sys.exit(0)],
    [sys.exit(1)], or an exception of the tokenizer that is not an instance
    of [Exception] passing through.  It never runs off its end, and indexing
    [sys.argv] never raises [IndexError]. *)
Theorem X1_script_ends_by_exit_or_foreign_exception
    (tk : Tokenizer) (fs : FileSystem) (argv : list string) :
  snd (main tk fs argv) = inl (Exit 0) \/
  snd (main tk fs argv) = inl (Exit 1) \/
  exists e text,
    snd (main tk fs argv) = inl e /\
    tokenizer_raises tk text (model_of argv) e /\
    isinstance e Exception = false.
Proof.
  script_cases tk fs argv;
    try (left; reflexivity); try (right; left; reflexivity);
    right; right;
    match goal with
    | Hl : encoding_for_model tk _ = inl ?e |- _ =>
        exists e, ""; repeat split; [left; exact Hl | assumption]
    | Hl : encoding_for_model tk _ = inr ?enc,
      He : encode tk ?enc ?text = inl ?e |- _ =>
        exists e, text; repeat split;
        [right; exists enc; split; assumption | assumption]
    end.
Qed.

Lemma line_nonempty (s t : string) : (s ++ newline) ++ t <> "".
Proof. destruct s; discriminate. Qed.

Lemma byte_tokenizer_raises_only_Exception :
  raises_only_Exception byte_tokenizer.
Proof.
  split.
  - intros model e. simpl. destruct (String.eqb model "gpt-4"); intros H.
    + discriminate H.
    + injection H as <-. reflexivity.
  - intros enc text e H. discriminate H.
Qed.

(** X2. With a tokenizer whose failures are all instances of [Exception],
    every run is one of two kinds: exit status 0 with a line on standard
    output and nothing from the script on the error stream, or exit status 1
    with nothing on standard output and a diagnostic on the error stream. *)
Theorem X2_status_tells_which_stream
    (tk : Tokenizer) (fs : FileSystem) (argv : list string) :
  raises_only_Exception tk ->
  (status (run tk fs argv) = 0 /\
   stdout (run tk fs argv) <> "" /\ stderr (run tk fs argv) = "") \/
  (status (run tk fs argv) = 1 /\
   stdout (run tk fs argv) = "" /\ stderr (run tk fs argv) <> "").
Proof.
  intros [Hlook Henc].
  script_cases tk fs argv;
    try (match goal with
         | Hl : encoding_for_model tk _ = inl ?e,
           Hi : isinstance ?e Exception = false |- _ =>
             rewrite (Hlook _ _ Hl) in Hi; discriminate Hi
         | He : encode tk _ _ = inl ?e,
           Hi : isinstance ?e Exception = false |- _ =>
             rewrite (Henc _ _ _ He) in Hi; discriminate Hi
         end);
    simpl;
    first [ left; repeat split; first [apply line_nonempty | discriminate]
          | right; repeat split; first [apply line_nonempty | discriminate] ].
Qed.

Lemma X2_witness_success_and_failure :
  ((status (run byte_tokenizer sample_fs ["test_tiktoken.py"; "notes.txt"]) = 0 /\
    stdout (run byte_tokenizer sample_fs ["test_tiktoken.py"; "notes.txt"]) <> "" /\
    stderr (run byte_tokenizer sample_fs ["test_tiktoken.py"; "notes.txt"]) = "") \/
   (status (run byte_tokenizer sample_fs ["test_tiktoken.py"; "notes.txt"]) = 1 /\
    stdout (run byte_tokenizer sample_fs ["test_tiktoken.py"; "notes.txt"]) = "" /\
    stderr (run byte_tokenizer sample_fs ["test_tiktoken.py"; "notes.txt"]) <> "")) /\
  status (run byte_tokenizer sample_fs ["test_tiktoken.py"; "notes.txt"]) = 0.
Proof.
  split.
  - apply (X2_status_tells_which_stream byte_tokenizer sample_fs
             ["test_tiktoken.py"; "notes.txt"]).
    exact byte_tokenizer_raises_only_Exception.
  - reflexivity.
Defined.

(** X3. Whatever the tokenizer does, standard output is never used for
    anything but the count: if a run wrote to standard output at all, what it
    wrote is one line, the decimal form of an integer that is not negative;
    its exit status is 0 and the script wrote nothing to the error stream. *)
Theorem X3_stdout_only_holds_count
    (tk : Tokenizer) (fs : FileSystem) (argv : list string) :
  stdout (run tk fs argv) <> "" ->
  (exists n, 0 <= n /\ stdout (run tk fs argv) = str_int n ++ newline) /\
  status (run tk fs argv) = 0 /\
  stderr (run tk fs argv) = "".
Proof.
  script_cases tk fs argv; simpl; intros Hout;
    try (exfalso; apply Hout; reflexivity);
    (split; [|split; reflexivity]);
    match goal with
    | |- exists n, _ /\ (str_int ?m ++ _) ++ _ = _ =>
        exists m; split; [lia | apply append_empty_r]
    end.
Qed.

Lemma X3_witness_directory_path :
  (exists n, 0 <= n /\
     stdout (run byte_tokenizer sample_fs ["test_tiktoken.py"; "/tmp"])
       = str_int n ++ newline) /\
  status (run byte_tokenizer sample_fs ["test_tiktoken.py"; "/tmp"]) = 0 /\
  stderr (run byte_tokenizer sample_fs ["test_tiktoken.py"; "/tmp"]) = "".
Proof.
  apply (X3_stdout_only_holds_count byte_tokenizer sample_fs
           ["test_tiktoken.py"; "/tmp"]).
  discriminate.
Defined.

(** X4. The sentinel is never mistaken for a count.  When [count_tokens]
    returns, the value is -1 exactly when the lookup or the encoding raised,
    and exactly when a diagnostic went to the error stream; a count comes
    with a silent error stream. *)
Theorem X4_sentinel_iff_tokenizer_failed
    (tk : Tokenizer) (text model : string) (t : trace) (n : Z) :
  count_tokens tk text model = (t, inr n) ->
  (n = -1 <-> exists e, tokenizer_raises tk text model e) /\
  (n = -1 <-> stderr_of t <> "").
Proof.
  unfold tokenizer_raises. rewrite count_tokens_eq.
  destruct (encoding_for_model tk model) as [e1|enc] eqn:Hlookup.
  - destruct (isinstance e1 Exception); intros H; inversion H; subst.
    split; split; intros _; try reflexivity.
    + exists e1. left. reflexivity.
    + simpl. discriminate.
  - destruct (encode tk enc text) as [e2|tokens] eqn:Hencode.
    + destruct (isinstance e2 Exception); intros H; inversion H; subst.
      split; split; intros _; try reflexivity.
      * exists e2. right. exists enc. split; [reflexivity | exact Hencode].
      * simpl. discriminate.
    + intros H. inversion H; subst. split; split.
      * intros Hneg. lia.
      * intros [e [Hl | [enc' [Hl He]]]]; [discriminate Hl|].
        injection Hl as <-. rewrite Hencode in He. discriminate He.
      * intros Hneg. lia.
      * intros Hne. exfalso. apply Hne. reflexivity.
Qed.

Lemma X4_witness_count_is_not_sentinel :
  (13 = -1 <-> exists e, tokenizer_raises byte_tokenizer "Hello, World!" "gpt-4" e) /\
  (13 = -1 <->
   stderr_of [CallEncodingForModel "gpt-4"; CallEncode "Hello, World!"] <> "").
Proof.
  apply (X4_sentinel_iff_tokenizer_failed byte_tokenizer "Hello, World!" "gpt-4"
           [CallEncodingForModel "gpt-4"; CallEncode "Hello, World!"] 13).
  reflexivity.
Defined.

(** X5. A run uses the tokenizer at most once: the calls it makes are, in
    order, the lookup of the model that line 35 chose and then one encoding,
    or the lookup alone, or none at all.  When the lookup of that model
    fails, no text is ever encoded. *)
Theorem X5_lookup_then_at_most_one_encoding
    (tk : Tokenizer) (fs : FileSystem) (argv : list string) :
  (filter is_tokenizer_call (effects (run tk fs argv)) = [] \/
   filter is_tokenizer_call (effects (run tk fs argv))
     = [CallEncodingForModel (model_of argv)] \/
   exists text,
     filter is_tokenizer_call (effects (run tk fs argv))
       = [CallEncodingForModel (model_of argv); CallEncode text]) /\
  (forall e, encoding_for_model tk (model_of argv) = inl e ->
     existsb is_encode_call (effects (run tk fs argv)) = false).
Proof.
  script_cases tk fs argv; simpl; split;
    try (intros ? Hfail; first [discriminate Hfail | reflexivity]);
    first [ left; reflexivity
          | right; left; reflexivity
          | right; right; eexists; reflexivity ].
Qed.

Lemma X5_witness_unknown_model :
  existsb is_encode_call
    (effects (run byte_tokenizer sample_fs
                ["test_tiktoken.py"; "notes.txt"; "not-a-real-model"]))
  = false.
Proof.
  apply (proj2 (X5_lookup_then_at_most_one_encoding byte_tokenizer sample_fs
                  ["test_tiktoken.py"; "notes.txt"; "not-a-real-model"])
           (Raised KeyError
              "'Could not automatically map the model to a tokeniser.'")).
  reflexivity.
Defined.

(** X6. The only path the script ever touches is its first argument: every
    [os.path.isfile] test and every [open] in a run is on [sys.argv[1]], so a
    run without arguments touches no path at all; and a path that is opened
    names an existing regular file, never a directory or a missing file. *)
Theorem X6_file_access_confined_to_first_argument
    (tk : Tokenizer) (fs : FileSystem) (argv : list string) (path : string) :
  (In (CallIsFile path) (effects (run tk fs argv)) ->
   nth_error argv 1 = Some path) /\
  (In (CallOpenRead path) (effects (run tk fs argv)) ->
   nth_error argv 1 = Some path /\
   exists content, fs path = Some (RegularFile content)).
Proof.
  script_cases tk fs argv; simpl; split; intros Hin;
    repeat (destruct Hin as [Hin|Hin];
            [ first [ discriminate Hin | injection Hin as <- ] | ]);
    try contradiction;
    first [ reflexivity | split; [reflexivity | eexists; eassumption] ].
Qed.

Lemma X6_witness_opened_file :
  nth_error ["test_tiktoken.py"; "notes.txt"] 1 = Some "notes.txt" /\
  exists content, sample_fs "notes.txt" = Some (RegularFile content).
Proof.
  apply (proj2 (X6_file_access_confined_to_first_argument byte_tokenizer
                  sample_fs ["test_tiktoken.py"; "notes.txt"] "notes.txt")).
  simpl. right. left. reflexivity.
Defined.

(** X7. [sys.argv[0]] is never read: two invocations that differ only in
    the script name behave alike, and an empty [sys.argv] behaves as an
    invocation without arguments. *)
Theorem X7_script_name_unused
    (tk : Tokenizer) (fs : FileSystem) (script script' : string)
    (args : list string) :
  run tk fs (script :: args) = run tk fs (script' :: args) /\
  run tk fs [] = run tk fs [script].
Proof.
  split; [|reflexivity].
  unfold run. rewrite !main_eq.
  destruct args as [|arg rest]; [reflexivity|].
  rewrite !resolve_text_eq. reflexivity.
Qed.

Lemma prefix_empty (s : string) : prefix "" s = true.
Proof. destruct s; reflexivity. Qed.

(** X8. The error stream tells the two failures apart.  A run in which the
    script wrote a diagnostic is either a failed read, whose diagnostic
    starts with "Error reading file: " and which made no tokenizer call, or a
    tokenizer failure, whose diagnostic starts with "Error: ", does not start
    with "Error reading file: ", and which did call the tokenizer. *)
Theorem X8_diagnostics_tell_failures_apart
    (tk : Tokenizer) (fs : FileSystem) (argv : list string) :
  stderr (run tk fs argv) = "" \/
  (prefix "Error reading file: " (stderr (run tk fs argv)) = true /\
   existsb is_tokenizer_call (effects (run tk fs argv)) = false) \/
  (prefix "Error: " (stderr (run tk fs argv)) = true /\
   prefix "Error reading file: " (stderr (run tk fs argv)) = false /\
   existsb is_tokenizer_call (effects (run tk fs argv)) = true).
Proof.
  script_cases tk fs argv; simpl;
    first [ left; reflexivity
          | right; left; split; first [reflexivity | apply prefix_empty]
          | right; right; repeat split; apply prefix_empty ].
Qed.
